(** * BinarySearchTree.ts: a shallow embedding and its properties

    The embedding follows
    [src/main/algorithms/datastructures/binarysearchtree/BinarySearchTree.ts].

    Modelling choices.
    - The class is generic in its payload type [T] and compares payloads
      with the native operators.  A payload type is a type with a [<] and a
      [===]; [a > b] is [b < a], which is how the language defines it.
      Nothing is assumed of the operators unless a statement says so; the
      numbers of the scenarios are integers, with [Z.ltb] and [Z.eqb].
    - A child link of type [BinarySearchTreeNode<T> | null | undefined] is
      either absent or a node.  The source only ever tests links with
      [== null], which does not tell [null] from [undefined], so both are
      the one constructor [Null].
    - [_nodeCount] is a number that only ever changes by [++] and [--]; it
      is a [Z].
    - The class instance is a record, and a method that assigns to [this]
      returns its result together with the new instance. *)

From Stdlib Require Import ZArith List Bool Lia.
Import ListNotations.
Local Open Scope Z_scope.

(** ** Payloads *)

(** The operators the source applies to payloads. *)
Class Comparable (T : Type) : Type := {
  lt : T -> T -> bool;
  strictEq : T -> T -> bool
}.

Declare Scope payload_scope.
Notation "a <? b" := (lt a b) (at level 70) : payload_scope.
Notation "a >? b" := (lt b a) (at level 70) : payload_scope.
Notation "a === b" := (strictEq a b) (at level 70) : payload_scope.
Local Open Scope payload_scope.

(** The strict total order that the data model asks of a payload type. *)
Class StrictTotalOrder (T : Type) {cmp : Comparable T} : Prop := {
  lt_irrefl : forall a : T, (a <? a) = false;
  lt_trans : forall a b c : T,
    (a <? b) = true -> (b <? c) = true -> (a <? c) = true;
  lt_connex : forall a b : T, (a <? b) = false -> (b <? a) = false -> a = b
}.

(** Integers as payloads. *)
#[export] Instance Z_Comparable : Comparable Z := {|
  lt := Z.ltb;
  strictEq := Z.eqb
|}.

(** ** The node type *)

Inductive BinarySearchTreeNode (T : Type) : Type :=
| Null : BinarySearchTreeNode T
| Node (node_left : BinarySearchTreeNode T) (data : T)
       (node_right : BinarySearchTreeNode T) : BinarySearchTreeNode T.

Arguments Null {T}.
Arguments Node {T} node_left data node_right.

Module BinarySearchTree.

(** The two private fields of the class. *)
Record t (T : Type) : Type := mk {
  _nodeCount : Z;
  _root : BinarySearchTreeNode T
}.

Arguments mk {T} _ _.
Arguments _nodeCount {T} _.
Arguments _root {T} _.

Section Methods.

Context {T : Type} {cmp : Comparable T}.

(** A freshly constructed instance: [_nodeCount = 0], [_root = null]. *)
Definition new : t T := {| _nodeCount := 0; _root := Null |}.

(** [size()] *)
Definition size (this : t T) : Z := _nodeCount this.

(** [isEmpty()] *)
Definition isEmpty (this : t T) : bool := (size this =? 0)%Z.

(** [recursiveContains(node, elem)] *)
Fixpoint recursiveContains (node : BinarySearchTreeNode T) (elem : T) : bool :=
  match node with
  | Null => false
  | Node node_left data node_right =>
      if elem <? data then recursiveContains node_left elem
      else if elem >? data then recursiveContains node_right elem
      else true
  end.

(** [contains(elem)] *)
Definition contains (this : t T) (elem : T) : bool :=
  recursiveContains (_root this) elem.

(** [recursiveAdd(node, elem)].  In the base case the source declares a
    block-scoped [const node] holding the new leaf; that constant shadows
    the parameter inside the block only, and the [return node] after the
    block returns the parameter, which is absent. *)
Fixpoint recursiveAdd (node : BinarySearchTreeNode T) (elem : T)
  : BinarySearchTreeNode T :=
  match node with
  | Null =>
      let node' := Node Null elem Null in
      node
  | Node node_left data node_right =>
      if elem === data
      then Node (recursiveAdd node_left elem) data node_right
      else Node node_left data (recursiveAdd node_right elem)
  end.

(** [add(elem)] *)
Definition add (this : t T) (elem : T) : bool * t T :=
  if contains this elem then (false, this)
  else (true, {| _nodeCount := _nodeCount this + 1;
                 _root := recursiveAdd (_root this) elem |}).

(** [findMin(node)]: walk left while there is a left child.  The
    parameter type of the source excludes an absent node and the only
    call site passes a present one; the [Null] line is there to make the
    function total. *)
Fixpoint findMin (node : BinarySearchTreeNode T) : BinarySearchTreeNode T :=
  match node with
  | Null => Null
  | Node node_left _ _ =>
      match node_left with
      | Null => node
      | Node _ _ _ => findMin node_left
      end
  end.

(** [findMax(node)], the mirror image (unused by the other methods). *)
Fixpoint findMax (node : BinarySearchTreeNode T) : BinarySearchTreeNode T :=
  match node with
  | Null => Null
  | Node _ _ node_right =>
      match node_right with
      | Null => node
      | Node _ _ _ => findMax node_right
      end
  end.

(** [recursiveRemove(node, elem)] *)
Fixpoint recursiveRemove (node : BinarySearchTreeNode T) (elem : T)
  : BinarySearchTreeNode T :=
  match node with
  | Null => Null
  | Node node_left data node_right =>
      if elem <? data
      then Node (recursiveRemove node_left elem) data node_right
      else if elem >? data
      then Node node_left data (recursiveRemove node_right elem)
      else
        match node_left with
        | Null => node_right
        | Node _ _ _ =>
            match node_right with
            | Null => node_left
            | Node _ _ _ =>
                match findMin node_right with
                | Node _ tmp_data _ =>
                    Node node_left tmp_data
                         (recursiveRemove node_right tmp_data)
                | Null => node
                end
            end
        end
  end.

(** [remove(elem)] *)
Definition remove (this : t T) (elem : T) : bool * t T :=
  if contains this elem
  then (true, {| _nodeCount := _nodeCount this - 1;
                 _root := recursiveRemove (_root this) elem |})
  else (false, this).

(** [recursiveHeight(node)] *)
Fixpoint recursiveHeight (node : BinarySearchTreeNode T) : Z :=
  match node with
  | Null => 0
  | Node node_left _ node_right =>
      Z.max (recursiveHeight node_left) (recursiveHeight node_right) + 1
  end.

(** [height()] *)
Definition height (this : t T) : Z := recursiveHeight (_root this).

End Methods.

End BinarySearchTree.

Import BinarySearchTree.

(** ** Clients of the public interface *)

(** One call of a public method. *)
Inductive call (T : Type) : Type :=
| Add (elem : T)
| Remove (elem : T)
| Contains (elem : T)
| Height
| Size
| IsEmpty.

Arguments Add {T} elem.
Arguments Remove {T} elem.
Arguments Contains {T} elem.
Arguments Height {T}.
Arguments Size {T}.
Arguments IsEmpty {T}.

(** What a call returns: a boolean or a number. *)
Inductive answer : Type :=
| ABool (b : bool)
| ANum (n : Z).

Section Clients.

Context {T : Type} {cmp : Comparable T}.

(** One call on an instance: its answer and the instance afterwards. *)
Definition step (this : t T) (c : call T) : answer * t T :=
  match c with
  | Add elem => let (b, this') := add this elem in (ABool b, this')
  | Remove elem => let (b, this') := remove this elem in (ABool b, this')
  | Contains elem => (ABool (contains this elem), this)
  | Height => (ANum (height this), this)
  | Size => (ANum (size this), this)
  | IsEmpty => (ABool (isEmpty this), this)
  end.

(** A sequence of calls, first call first. *)
Fixpoint run (calls : list (call T)) (this : t T) : t T :=
  match calls with
  | [] => this
  | c :: calls' => run calls' (snd (step this c))
  end.

(** The instances a client can reach from [new BinarySearchTree()]. *)
Inductive reachable : t T -> Prop :=
| reachable_new : reachable new
| reachable_step this c : reachable this -> reachable (snd (step this c)).

(** [add] of each value of a list in turn, [remove] likewise. *)
Definition addAll (elems : list T) (this : t T) : t T :=
  run (map Add elems) this.

Definition removeAll (elems : list T) (this : t T) : t T :=
  run (map Remove elems) this.

(** How many [add] calls a sequence of calls holds. *)
Fixpoint addCalls (calls : list (call T)) : Z :=
  match calls with
  | [] => 0
  | Add _ :: calls' => addCalls calls' + 1
  | _ :: calls' => addCalls calls'
  end.

End Clients.

(** ** Vocabulary of the specification *)

Section Vocabulary.

Context {T : Type} {cmp : Comparable T}.

(** The payloads of the nodes reachable from a link, in left-to-right
    order. *)
Fixpoint elements (node : BinarySearchTreeNode T) : list T :=
  match node with
  | Null => []
  | Node node_left data node_right =>
      elements node_left ++ data :: elements node_right
  end.

(** The number of nodes reachable from a link. *)
Fixpoint countNodes (node : BinarySearchTreeNode T) : Z :=
  match node with
  | Null => 0
  | Node node_left _ node_right =>
      countNodes node_left + 1 + countNodes node_right
  end.

(** The search-tree invariant of the data model: below every node, the
    left subtree holds lesser payloads only and the right subtree greater
    payloads only. *)
Fixpoint isBST (node : BinarySearchTreeNode T) : bool :=
  match node with
  | Null => true
  | Node node_left data node_right =>
      forallb (fun x => x <? data) (elements node_left)
      && forallb (fun x => data <? x) (elements node_right)
      && isBST node_left && isBST node_right
  end.

(** A leaf node. *)
Definition leaf (data : T) : BinarySearchTreeNode T := Node Null data Null.

(** The right-leaning chain holding the values of a list, top first. *)
Fixpoint chain (elems : list T) : BinarySearchTreeNode T :=
  match elems with
  | [] => Null
  | x :: elems' => Node Null x (chain elems')
  end.

End Vocabulary.

(** The search tree with root 5, children 3 and 8, and leaves 1, 4, 7, 9,
    and an instance that holds it. *)
Definition seven : BinarySearchTreeNode Z :=
  Node (Node (leaf 1) 3 (leaf 4)) 5 (Node (leaf 7) 8 (leaf 9)).

Definition sevenTree : t Z := {| _nodeCount := 7; _root := seven |}.

(** ** Integers are ordered as the data model asks *)

#[export] Instance Z_StrictTotalOrder : StrictTotalOrder Z.
Proof.
  split; unfold lt; simpl.
  - apply Z.ltb_irrefl.
  - intros a b c Hab Hbc. apply Z.ltb_lt. apply Z.ltb_lt in Hab, Hbc. lia.
  - intros a b Hab Hba. apply Z.ltb_ge in Hab, Hba. lia.
Qed.

Section Order.

Context {T : Type} {cmp : Comparable T} {ord : StrictTotalOrder T}.

Lemma lt_asym (a b : T) : (a <? b) = true -> (b <? a) = false.
Proof.
  intros Hab. destruct (b <? a) eqn:Hba; [| reflexivity].
  rewrite <- (lt_irrefl a). symmetry. apply (lt_trans a b a Hab Hba).
Qed.

End Order.

(** ** What the insertion does *)

Section Insertion.

Context {T : Type} {cmp : Comparable T}.

(** The new leaf is never linked: the recursive insert hands back the
    very tree it was given. *)
Lemma recursiveAdd_same (node : BinarySearchTreeNode T) (elem : T) :
  recursiveAdd node elem = node.
Proof.
  induction node as [| l IHl d r IHr]; simpl.
  - reflexivity.
  - destruct (elem === d); congruence.
Qed.

Lemma add_absent_root (this : t T) (elem : T) :
  _root this = Null ->
  add this elem = (true, {| _nodeCount := _nodeCount this + 1;
                            _root := Null |}).
Proof.
  intros Hroot. unfold add, contains. rewrite Hroot. reflexivity.
Qed.

(** On any instance, adding a value that is not found raises the count
    and leaves the tree as it was. *)
Lemma add_keeps_root (this : t T) (elem : T) :
  contains this elem = false ->
  add this elem = (true, {| _nodeCount := _nodeCount this + 1;
                            _root := _root this |}).
Proof.
  intros Hmissing. unfold add. rewrite Hmissing, recursiveAdd_same.
  reflexivity.
Qed.

Lemma remove_absent_root (this : t T) (elem : T) :
  _root this = Null -> remove this elem = (false, this).
Proof.
  intros Hroot. unfold remove, contains. rewrite Hroot. reflexivity.
Qed.

(** One call keeps an absent root absent, and moves the count by one
    exactly when it is an [add]. *)
Lemma step_absent_root (this : t T) (c : call T) :
  _root this = Null ->
  _root (snd (step this c)) = Null
  /\ _nodeCount (snd (step this c)) = _nodeCount this + addCalls [c].
Proof.
  intros Hroot. destruct c as [elem | elem | elem | | |]; simpl.
  - rewrite (add_absent_root this elem Hroot). simpl.
    split; [reflexivity | lia].
  - rewrite (remove_absent_root this elem Hroot). simpl.
    split; [assumption | lia].
  - split; [assumption | lia].
  - split; [assumption | lia].
  - split; [assumption | lia].
  - split; [assumption | lia].
Qed.

Lemma run_absent_root (calls : list (call T)) :
  forall this : t T,
    _root this = Null ->
    _root (run calls this) = Null
    /\ _nodeCount (run calls this) = _nodeCount this + addCalls calls.
Proof.
  induction calls as [| c calls IH]; intros this Hroot.
  - simpl. split; [assumption | lia].
  - destruct (step_absent_root this c Hroot) as [Hroot' Hcount'].
    destruct (IH _ Hroot') as [Hroot'' Hcount''].
    change (run (c :: calls) this) with (run calls (snd (step this c))).
    split; [assumption |].
    rewrite Hcount'', Hcount'.
    destruct c; simpl; lia.
Qed.

Lemma reachable_run (calls : list (call T)) :
  forall this : t T, reachable this -> reachable (run calls this).
Proof.
  induction calls as [| c calls IH]; intros this Hreach; simpl.
  - assumption.
  - apply IH. constructor. assumption.
Qed.

Lemma reachable_absent_root (this : t T) :
  reachable this -> _root this = Null.
Proof.
  induction 1 as [| this c _ IH].
  - reflexivity.
  - apply (step_absent_root this c IH).
Qed.

Lemma addAll_new (elems : list T) :
  addAll elems new
  = {| _nodeCount := Z.of_nat (length elems); _root := Null |}.
Proof.
  unfold addAll.
  destruct (run_absent_root (map Add elems) new eq_refl) as [Hroot Hcount].
  destruct (run (map Add elems) new) as [n root]; simpl in *.
  subst root. f_equal. rewrite Hcount. clear Hcount.
  induction elems as [| x elems IH]; simpl addCalls; simpl length; lia.
Qed.

End Insertion.

(** ** What the height computes *)

Section Height.

Context {T : Type}.

(** The height routine itself counts the levels of a chain. *)
Lemma recursiveHeight_chain (elems : list T) :
  recursiveHeight (chain elems) = Z.of_nat (length elems).
Proof.
  induction elems as [| x elems IH]; simpl chain; simpl recursiveHeight.
  - reflexivity.
  - rewrite IH. simpl length. lia.
Qed.

Lemma recursiveHeight_leaf (data : T) : recursiveHeight (leaf data) = 1.
Proof. reflexivity. Qed.

End Height.

(** ** What the lookup and the removal do on ordered payloads *)

Section Removal.

Context {T : Type} {cmp : Comparable T} {ord : StrictTotalOrder T}.

(** A value the lookup finds is the payload of a reachable node. *)
Lemma recursiveContains_elements (node : BinarySearchTreeNode T) (elem : T) :
  recursiveContains node elem = true -> In elem (elements node).
Proof.
  induction node as [| l IHl d r IHr]; simpl; [discriminate |].
  rewrite in_app_iff; simpl.
  destruct (elem <? d) eqn:Hlt; [auto |].
  destruct (d <? elem) eqn:Hgt; [auto |].
  intros _. right; left. symmetry. apply lt_connex; assumption.
Qed.

(** A value that a bound on all payloads rules out is not found. *)
Lemma recursiveContains_bounded
      (P : T -> bool) (node : BinarySearchTreeNode T) (elem : T) :
  forallb P (elements node) = true ->
  P elem = false ->
  recursiveContains node elem = false.
Proof.
  intros Hall HP.
  destruct (recursiveContains node elem) eqn:Hfound; [| reflexivity].
  apply recursiveContains_elements in Hfound.
  rewrite forallb_forall in Hall. rewrite (Hall _ Hfound) in HP.
  discriminate.
Qed.

(** In a search tree the lookup finds every payload. *)
Lemma elements_recursiveContains (node : BinarySearchTreeNode T) (elem : T) :
  isBST node = true ->
  In elem (elements node) -> recursiveContains node elem = true.
Proof.
  induction node as [| l IHl d r IHr]; intros Hbst Hin; [destruct Hin |].
  simpl in Hbst. rewrite !andb_true_iff in Hbst.
  destruct Hbst as [[[Hl Hr] Hbl] Hbr].
  rewrite forallb_forall in Hl, Hr.
  simpl in Hin. rewrite in_app_iff in Hin. simpl in Hin.
  simpl.
  destruct Hin as [Hin | [Heq | Hin]].
  - rewrite (Hl _ Hin). auto.
  - subst d. rewrite lt_irrefl. reflexivity.
  - pose proof (Hr _ Hin) as Hgt.
    rewrite (lt_asym _ _ Hgt), Hgt. auto.
Qed.

(** The leftmost node of a present node is a node, and its payload is
    one of the payloads below. *)
Lemma findMin_elements (node : BinarySearchTreeNode T) :
  node <> Null ->
  exists l m r, findMin node = Node l m r /\ In m (elements node).
Proof.
  induction node as [| l IHl d r _]; intros Hpresent; [congruence |].
  destruct l as [| ll ld lr].
  - exists Null, d, r. simpl. auto.
  - change (findMin (Node (Node ll ld lr) d r))
      with (findMin (Node ll ld lr)).
    destruct IHl as (l' & m & r' & Hmin & Hin); [discriminate |].
    exists l', m, r'. split; [assumption |].
    change (elements (Node (Node ll ld lr) d r))
      with (elements (Node ll ld lr) ++ d :: elements r).
    apply in_or_app. left. assumption.
Qed.

(** The leftmost payload of a search tree is its least. *)
Lemma findMin_least (node l' r' : BinarySearchTreeNode T) (m : T) :
  isBST node = true ->
  findMin node = Node l' m r' ->
  forall x, In x (elements node) -> (x <? m) = false.
Proof.
  induction node as [| l IHl d r _]; intros Hbst Hmin x Hin;
    [destruct Hin |].
  simpl in Hbst. rewrite !andb_true_iff in Hbst.
  destruct Hbst as [[[Hl Hr] Hbl] _].
  rewrite forallb_forall in Hl, Hr.
  destruct l as [| ll ld lr].
  - injection Hmin as _ Hd _. subst m.
    simpl in Hin. destruct Hin as [Heq | Hin].
    + subst x. apply lt_irrefl.
    + apply lt_asym, Hr, Hin.
  - change (findMin (Node ll ld lr) = Node l' m r') in Hmin.
    destruct (findMin_elements (Node ll ld lr))
      as (l'' & m' & r'' & Hmin' & Hin'); [discriminate |].
    rewrite Hmin in Hmin'. injection Hmin' as _ Hm _. subst m'.
    pose proof (Hl _ Hin') as Hmd.
    change (In x (elements (Node ll ld lr) ++ d :: elements r)) in Hin.
    rewrite in_app_iff in Hin. simpl in Hin.
    destruct Hin as [Hin | [Heq | Hin]].
    + apply (IHl Hbl Hmin x Hin).
    + subst x. apply lt_asym, Hmd.
    + apply lt_asym. apply (lt_trans m d x Hmd). apply Hr, Hin.
Qed.

(** In a search tree, the removed value is not found afterwards. *)
Lemma recursiveRemove_drops (node : BinarySearchTreeNode T) (elem : T) :
  isBST node = true ->
  recursiveContains (recursiveRemove node elem) elem = false.
Proof.
  induction node as [| l IHl d r IHr]; intros Hbst; [reflexivity |].
  simpl in Hbst. rewrite !andb_true_iff in Hbst.
  destruct Hbst as [[[Hl Hr] Hbl] Hbr].
  simpl recursiveRemove.
  destruct (elem <? d) eqn:Hlt.
  { simpl. rewrite Hlt. auto. }
  destruct (d <? elem) eqn:Hgt.
  { simpl. rewrite Hlt, Hgt. auto. }
  assert (elem = d) by (apply lt_connex; assumption). subst d.
  destruct l as [| ll ld lr].
  { apply (recursiveContains_bounded _ _ _ Hr). apply lt_irrefl. }
  destruct r as [| rl rd rr].
  { apply (recursiveContains_bounded _ _ _ Hl). apply lt_irrefl. }
  destruct (findMin_elements (Node rl rd rr)) as (l' & m & r' & Hmin & Hin);
    [discriminate |].
  rewrite Hmin.
  rewrite forallb_forall in Hr. specialize (Hr _ Hin).
  change ((if elem <? m
           then recursiveContains (Node ll ld lr) elem
           else if m <? elem
                then recursiveContains (recursiveRemove (Node rl rd rr) m)
                                       elem
                else true) = false).
  rewrite Hr.
  apply (recursiveContains_bounded _ _ _ Hl). apply lt_irrefl.
Qed.

(** Removal brings in no payload that was not there. *)
Lemma recursiveRemove_elements (node : BinarySearchTreeNode T) (elem x : T) :
  In x (elements (recursiveRemove node elem)) -> In x (elements node).
Proof.
  revert elem.
  induction node as [| l IHl d r IHr]; intros elem; [auto |].
  simpl recursiveRemove.
  destruct (elem <? d).
  { simpl. rewrite !in_app_iff. simpl. intros [H | H]; eauto. }
  destruct (d <? elem).
  { simpl. rewrite !in_app_iff. simpl. intros [H | [H | H]]; eauto. }
  destruct l as [| ll ld lr].
  { simpl. auto. }
  destruct r as [| rl rd rr].
  { intros H. change (In x (elements (Node ll ld lr) ++ d :: [])).
    apply in_or_app. auto. }
  destruct (findMin_elements (Node rl rd rr)) as (l' & m & r' & Hmin & Hin);
    [discriminate |].
  rewrite Hmin.
  change (In x (elements (Node ll ld lr)
                ++ m :: elements (recursiveRemove (Node rl rd rr) m))
          -> In x (elements (Node ll ld lr)
                   ++ d :: elements (Node rl rd rr))).
  rewrite !in_app_iff. simpl In.
  intros [H | [H | H]]; [auto | subst x; auto | eauto].
Qed.

Lemma recursiveRemove_forallb
      (P : T -> bool) (node : BinarySearchTreeNode T) (elem : T) :
  forallb P (elements node) = true ->
  forallb P (elements (recursiveRemove node elem)) = true.
Proof.
  rewrite !forallb_forall. intros Hall x Hin.
  apply Hall. apply (recursiveRemove_elements _ _ _ Hin).
Qed.

(** Removal keeps a search tree a search tree. *)
Lemma recursiveRemove_isBST (node : BinarySearchTreeNode T) (elem : T) :
  isBST node = true -> isBST (recursiveRemove node elem) = true.
Proof.
  revert elem.
  induction node as [| l IHl d r IHr]; intros elem Hbst; [reflexivity |].
  simpl in Hbst. rewrite !andb_true_iff in Hbst.
  destruct Hbst as [[[Hl Hr] Hbl] Hbr].
  simpl recursiveRemove.
  destruct (elem <? d).
  { simpl. rewrite !andb_true_iff.
    auto using recursiveRemove_forallb. }
  destruct (d <? elem).
  { simpl. rewrite !andb_true_iff.
    auto using recursiveRemove_forallb. }
  destruct l as [| ll ld lr]; [assumption |].
  destruct r as [| rl rd rr]; [assumption |].
  destruct (findMin_elements (Node rl rd rr)) as (l' & m & r' & Hmin & Hin);
    [discriminate |].
  rewrite Hmin.
  pose proof (findMin_least _ _ _ _ Hbr Hmin) as Hleast.
  pose proof (IHr m Hbr) as Hbr'.
  pose proof (recursiveRemove_drops _ m Hbr) as Hdrop.
  rewrite forallb_forall in Hl, Hr.
  pose proof (Hr _ Hin) as Hdm.
  change (forallb (fun x => x <? m) (elements (Node ll ld lr))
          && forallb (fun x => m <? x)
               (elements (recursiveRemove (Node rl rd rr) m))
          && isBST (Node ll ld lr)
          && isBST (recursiveRemove (Node rl rd rr) m) = true).
  rewrite !andb_true_iff. repeat split; try assumption.
  - apply forallb_forall. intros x Hx.
    apply (lt_trans x d m (Hl _ Hx) Hdm).
  - apply forallb_forall. intros x Hx.
    pose proof (Hleast x (recursiveRemove_elements _ _ _ Hx)) as Hxm.
    destruct (m <? x) eqn:Hmx; [reflexivity |].
    assert (x = m) by (apply lt_connex; assumption). subst x.
    rewrite (elements_recursiveContains _ _ Hbr' Hx) in Hdrop.
    discriminate.
Qed.

End Removal.

(** ** The methods on a tree that does hold nodes *)

Section Populated.

(** On the search tree holding 1, 3, 4, 5, 7, 8, 9 the lookup, the height
    and the removal give what the scenario of the specification
    expects. *)
Example seven_isBST : isBST seven = true.
Proof. reflexivity. Qed.

Example seven_recursiveHeight : recursiveHeight seven = 3.
Proof. reflexivity. Qed.

Example seven_recursiveContains :
  recursiveContains seven 4 = true /\ recursiveContains seven 6 = false.
Proof. split; reflexivity. Qed.

Example seven_recursiveRemove :
  recursiveRemove seven 8
  = Node (Node (leaf 1) 3 (leaf 4)) 5 (Node (leaf 7) 9 Null)
  /\ elements (recursiveRemove seven 8) = [1; 3; 4; 5; 7; 9].
Proof. split; reflexivity. Qed.

(** No sequence of calls on a new tree builds it. *)
Lemma seven_not_reachable (n : Z) :
  ~ reachable {| _nodeCount := n; _root := seven |}.
Proof.
  intros Hreach. apply reachable_absent_root in Hreach. discriminate.
Qed.

End Populated.

(** ** Further properties: shape, whatever the operators do *)

Section Shape.

Context {T : Type} {cmp : Comparable T}.

Lemma recursiveHeight_nonneg (node : BinarySearchTreeNode T) :
  0 <= recursiveHeight node.
Proof.
  induction node as [| l IHl d r IHr]; simpl; lia.
Qed.

Lemma countNodes_nonneg (node : BinarySearchTreeNode T) :
  0 <= countNodes node.
Proof.
  induction node as [| l IHl d r IHr]; simpl; lia.
Qed.

Lemma countNodes_length (node : BinarySearchTreeNode T) :
  countNodes node = Z.of_nat (length (elements node)).
Proof.
  induction node as [| l IHl d r IHr]; simpl; [reflexivity |].
  rewrite length_app. simpl length. lia.
Qed.

(** Height and node count move together: a tree of height [h] holds at
    least [h] and at most [2^h - 1] nodes. *)
Lemma recursiveHeight_countNodes (node : BinarySearchTreeNode T) :
  recursiveHeight node <= countNodes node
  /\ countNodes node + 1 <= 2 ^ recursiveHeight node.
Proof.
  induction node as [| l [IHl1 IHl2] d r [IHr1 IHr2]]; simpl.
  - split; [lia | reflexivity].
  - pose proof (recursiveHeight_nonneg l) as Hl.
    pose proof (recursiveHeight_nonneg r) as Hr.
    pose proof (countNodes_nonneg l) as Hcl.
    pose proof (countNodes_nonneg r) as Hcr.
    split; [lia |].
    rewrite Z.pow_add_r by lia. change (2 ^ 1) with 2.
    assert (2 ^ recursiveHeight l
            <= 2 ^ Z.max (recursiveHeight l) (recursiveHeight r))
      by (apply Z.pow_le_mono_r; lia).
    assert (2 ^ recursiveHeight r
            <= 2 ^ Z.max (recursiveHeight l) (recursiveHeight r))
      by (apply Z.pow_le_mono_r; lia).
    lia.
Qed.

(** A removal takes away one level at most and one node at most, and
    adds none. *)
Lemma recursiveRemove_shrinks (node : BinarySearchTreeNode T) :
  forall elem : T,
    (recursiveHeight node - 1 <= recursiveHeight (recursiveRemove node elem)
     /\ recursiveHeight (recursiveRemove node elem) <= recursiveHeight node)
    /\ (countNodes node - 1 <= countNodes (recursiveRemove node elem)
        /\ countNodes (recursiveRemove node elem) <= countNodes node).
Proof.
  induction node as [| l IHl d r IHr]; intros elem; [cbn; lia |].
  pose proof (recursiveHeight_nonneg l) as Hl.
  pose proof (recursiveHeight_nonneg r) as Hr.
  pose proof (countNodes_nonneg l) as Hcl.
  pose proof (countNodes_nonneg r) as Hcr.
  simpl recursiveRemove.
  destruct (elem <? d).
  { specialize (IHl elem). cbn [recursiveHeight countNodes]. lia. }
  destruct (d <? elem).
  { specialize (IHr elem). cbn [recursiveHeight countNodes]. lia. }
  destruct l as [| ll ld lr].
  { cbn [recursiveHeight countNodes]. lia. }
  destruct r as [| rl rd rr].
  { remember (Node ll ld lr) as l0. cbn [recursiveHeight countNodes]. lia. }
  destruct (findMin (Node rl rd rr)) as [| ml m mr]; [lia |].
  specialize (IHr m).
  remember (recursiveRemove (Node rl rd rr) m) as r1.
  remember (Node rl rd rr) as r0.
  remember (Node ll ld lr) as l0.
  cbn [recursiveHeight countNodes]. lia.
Qed.

End Shape.

(** ** Further properties: removal on ordered payloads *)

Section Ordered.

Context {T : Type} {cmp : Comparable T} {ord : StrictTotalOrder T}.

Lemma filter_keeps_all (f : T -> bool) (l : list T) :
  (forall x, In x l -> f x = true) -> filter f l = l.
Proof.
  induction l as [| a l IH]; intros Hall; [reflexivity |].
  cbn [filter]. rewrite (Hall a (or_introl eq_refl)).
  f_equal. apply IH. intros x Hx. apply Hall. right. assumption.
Qed.

(** Removing the leftmost payload of a search tree takes the head off its
    left-to-right list. *)
Lemma findMin_remove_elements (node l' r' : BinarySearchTreeNode T) (m : T) :
  isBST node = true ->
  findMin node = Node l' m r' ->
  elements node = m :: elements (recursiveRemove node m).
Proof.
  induction node as [| l IHl d r _]; intros Hbst Hmin; [discriminate |].
  simpl in Hbst. rewrite !andb_true_iff in Hbst.
  destruct Hbst as [[[Hl _] Hbl] _].
  destruct l as [| ll ld lr].
  - injection Hmin as _ Hd _. subst m.
    cbn [recursiveRemove]. rewrite lt_irrefl. reflexivity.
  - change (findMin (Node ll ld lr) = Node l' m r') in Hmin.
    destruct (findMin_elements (Node ll ld lr))
      as (l'' & m' & r'' & Hmin' & Hin); [discriminate |].
    rewrite Hmin in Hmin'. injection Hmin' as _ Hm _. subst m'.
    rewrite forallb_forall in Hl. pose proof (Hl _ Hin) as Hmd.
    specialize (IHl Hbl Hmin).
    remember (Node ll ld lr) as l0 eqn:El0.
    cbn [recursiveRemove]. rewrite Hmd.
    cbn [elements]. rewrite IHl at 1. reflexivity.
Qed.

(** In a search tree, a removal drops the payload it is given from the
    left-to-right list and keeps the others in place. *)
Lemma recursiveRemove_filter (node : BinarySearchTreeNode T) (elem : T) :
  isBST node = true ->
  elements (recursiveRemove node elem)
  = filter (fun x => (x <? elem) || (elem <? x)) (elements node).
Proof.
  induction node as [| l IHl d r IHr]; intros Hbst; [reflexivity |].
  pose proof Hbst as Hnode.
  simpl in Hbst. rewrite !andb_true_iff in Hbst.
  destruct Hbst as [[[Hl Hr] Hbl] Hbr].
  rewrite forallb_forall in Hl, Hr.
  cbn [elements]. rewrite filter_app. cbn [filter].
  cbn [recursiveRemove].
  destruct (elem <? d) eqn:Hlt.
  { cbn [elements]. rewrite (IHl Hbl), orb_true_r. f_equal. f_equal.
    symmetry. apply filter_keeps_all. intros x Hx.
    rewrite (lt_trans elem d x Hlt (Hr _ Hx)). apply orb_true_r. }
  destruct (d <? elem) eqn:Hgt.
  { cbn [elements]. rewrite (IHr Hbr). cbn [orb]. f_equal.
    symmetry. apply filter_keeps_all. intros x Hx.
    rewrite (lt_trans x d elem (Hl _ Hx) Hgt). reflexivity. }
  assert (elem = d) by (apply lt_connex; assumption). subst d.
  cbn [orb].
  rewrite (filter_keeps_all _ (elements l)), (filter_keeps_all _ (elements r)).
  2: { intros x Hx. rewrite (Hr _ Hx). apply orb_true_r. }
  2: { intros x Hx. rewrite (Hl _ Hx). reflexivity. }
  destruct l as [| ll ld lr]; [reflexivity |].
  destruct r as [| rl rd rr].
  { rewrite app_nil_r. reflexivity. }
  destruct (findMin_elements (Node rl rd rr)) as (l' & m & r' & Hmin & _);
    [discriminate |].
  rewrite Hmin.
  pose proof (findMin_remove_elements _ _ _ _ Hbr Hmin) as Hhead.
  remember (Node ll ld lr) as l0 eqn:El0.
  remember (Node rl rd rr) as r0 eqn:Er0.
  cbn [elements]. rewrite <- Hhead. reflexivity.
Qed.

(** In a search tree, the removal of a value that is found takes away
    exactly one node. *)
Lemma recursiveRemove_countNodes (node : BinarySearchTreeNode T) (elem : T) :
  isBST node = true ->
  recursiveContains node elem = true ->
  countNodes (recursiveRemove node elem) = countNodes node - 1.
Proof.
  induction node as [| l IHl d r IHr]; intros Hbst Hfound; [discriminate |].
  simpl in Hbst. rewrite !andb_true_iff in Hbst.
  destruct Hbst as [[[Hl Hr] Hbl] Hbr].
  cbn [recursiveContains] in Hfound. cbn [recursiveRemove].
  destruct (elem <? d) eqn:Hlt.
  { cbn [countNodes]. rewrite (IHl Hbl Hfound). lia. }
  destruct (d <? elem) eqn:Hgt.
  { cbn [countNodes]. rewrite (IHr Hbr Hfound). lia. }
  destruct l as [| ll ld lr]; [cbn [countNodes]; lia |].
  destruct r as [| rl rd rr]; [cbn [countNodes]; lia |].
  destruct (findMin_elements (Node rl rd rr)) as (l' & m & r' & Hmin & _);
    [discriminate |].
  rewrite Hmin.
  pose proof (findMin_remove_elements _ _ _ _ Hbr Hmin) as Hhead.
  apply (f_equal (@length T)) in Hhead. cbn [length] in Hhead.
  pose proof (countNodes_length (Node rl rd rr)) as Hr0.
  pose proof (countNodes_length (recursiveRemove (Node rl rd rr) m)) as Hr1.
  remember (recursiveRemove (Node rl rd rr) m) as r1.
  remember (Node ll ld lr) as l0 eqn:El0.
  remember (Node rl rd rr) as r0 eqn:Er0.
  cbn [countNodes]. lia.
Qed.

End Ordered.

(** ** The claims *)

(** C1.  A value that the tree does not hold is to be inserted by [add]:
    a new leaf with that payload and absent children is linked at an absent
    position, the count goes up by one, [true] is returned, and the new
    node is reachable from the root.  On a new tree, [add(5)] does return
    [true] and does raise the count to 1, yet the root stays absent: no
    node is reachable from it and 5 is not found. *)
Theorem add_links_no_node :
  contains new 5 = false
  /\ add new 5 = (true, {| _nodeCount := 1; _root := Null |})
  /\ elements (_root (snd (add new 5))) = []
  /\ contains (snd (add new 5)) 5 = false.
Proof. repeat split. Qed.

(** C2.  After adding pairwise distinct values to a new tree, every one of
    them is to be found and [size()] is to be their number.  After the
    single call [add(5)] the size is 1 as it should be, but 5 is not
    found. *)
Theorem added_value_not_found :
  NoDup [5]
  /\ In 5 [5]
  /\ size (addAll [5] new) = 1
  /\ contains (addAll [5] new) 5 = false.
Proof.
  split; [| repeat split; simpl; auto].
  constructor; [intros [] | constructor].
Qed.

(** C3.  In every reachable instance the count is to be the number of
    nodes reachable from the root, and to be 0 exactly when the root is
    absent.  The instance reached by [add(5)] on a new tree has count 1,
    no node, and an absent root. *)
Theorem count_without_nodes :
  reachable (snd (step new (Add 5)))
  /\ _nodeCount (snd (step new (Add 5))) = 1
  /\ countNodes (_root (snd (step new (Add 5)))) = 0
  /\ _root (snd (step new (Add 5))) = Null.
Proof.
  split; [| repeat split].
  apply reachable_step, reachable_new.
Qed.

(** C4.  On an instance whose tree is a search tree, removing a value that
    is found returns [true], lowers [size()] by exactly one, and the value
    is not found afterwards.  The payloads are ordered as the data model
    asks. *)
Theorem remove_found_value
        {T : Type} {cmp : Comparable T} {ord : StrictTotalOrder T}
        (this : t T) (elem : T) :
  isBST (_root this) = true ->
  contains this elem = true ->
  fst (remove this elem) = true
  /\ size (snd (remove this elem)) = size this - 1
  /\ contains (snd (remove this elem)) elem = false.
Proof.
  intros Hbst Hfound. unfold remove. rewrite Hfound. simpl.
  repeat split.
  unfold contains; simpl. apply recursiveRemove_drops. assumption.
Qed.

Lemma remove_found_value_witness :
  StrictTotalOrder Z
  /\ isBST (_root sevenTree) = true
  /\ contains sevenTree 8 = true
  /\ fst (remove sevenTree 8) = true
  /\ size (snd (remove sevenTree 8)) = size sevenTree - 1
  /\ contains (snd (remove sevenTree 8)) 8 = false.
Proof.
  split; [exact Z_StrictTotalOrder |].
  split; [reflexivity |]. split; [reflexivity |].
  apply (remove_found_value (ord := Z_StrictTotalOrder) sevenTree 8);
    reflexivity.
Defined.

(** C5.  Removing a value that is not found returns [false] and leaves the
    instance as it was: same nodes, same links, same count. *)
Theorem remove_missing_value
        {T : Type} {cmp : Comparable T} (this : t T) (elem : T) :
  contains this elem = false -> remove this elem = (false, this).
Proof.
  intros Hmissing. unfold remove. rewrite Hmissing. reflexivity.
Qed.

Lemma remove_missing_value_witness :
  contains sevenTree 6 = false
  /\ remove sevenTree 6 = (false, sevenTree).
Proof.
  split; [reflexivity |].
  apply (remove_missing_value sevenTree 6). reflexivity.
Defined.

(** C6.  Adding a value that is found returns [false] and leaves the
    instance as it was, [size()] included. *)
Theorem add_found_value
        {T : Type} {cmp : Comparable T} (this : t T) (elem : T) :
  contains this elem = true ->
  add this elem = (false, this)
  /\ size (snd (add this elem)) = size this.
Proof.
  intros Hfound. unfold add. rewrite Hfound. split; reflexivity.
Qed.

Lemma add_found_value_witness :
  contains sevenTree 4 = true
  /\ add sevenTree 4 = (false, sevenTree)
  /\ size (snd (add sevenTree 4)) = size sevenTree.
Proof.
  split; [reflexivity |].
  apply (add_found_value sevenTree 4). reflexivity.
Defined.

(** C7.  Building a tree from a set of values and then removing each of
    them is to end with [isEmpty()] true and [size()] 0.  With the one
    value 5, the tree built by [add(5)] has size 1, [remove(5)] finds
    nothing to remove, and the end is a tree of size 1 that is not
    empty. *)
Theorem build_then_remove_not_empty :
  remove (addAll [5] new) 5 = (false, addAll [5] new)
  /\ isEmpty (removeAll [5] (addAll [5] new)) = false
  /\ size (removeAll [5] (addAll [5] new)) = 1.
Proof. repeat split. Qed.

(** C8.  [height()] is to be 0 on a new tree, 1 on a tree holding one
    value, and n after n values were inserted in increasing order.  It is
    0 on a new tree; after [add(1)] it is still 0, and after [add(1)],
    [add(2)], [add(3)] it is 0 as well. *)
Theorem height_after_inserts :
  height (new : t Z) = 0
  /\ height (addAll [1] new) = 0
  /\ height (addAll [1; 2; 3] new) = 0.
Proof. repeat split. Qed.

(** C9.  The scenario: after inserting 5, 3, 8, 1, 4, 7, 9 the size is to
    be 7, the height 3, 4 found and 6 not; after [remove(8)] the size is to
    be 6, 8 not found and 9 found.  The size is 7 and 6 is not found, but
    the height is 0 and 4 is not found; [remove(8)] returns [false], the
    size stays 7 and 9 is not found. *)
Theorem scenario_5_3_8_1_4_7_9 :
  let built := addAll [5; 3; 8; 1; 4; 7; 9] new in
  size built = 7
  /\ height built = 0
  /\ contains built 4 = false
  /\ contains built 6 = false
  /\ fst (remove built 8) = false
  /\ size (snd (remove built 8)) = 7
  /\ contains (snd (remove built 8)) 8 = false
  /\ contains (snd (remove built 8)) 9 = false.
Proof. repeat split. Qed.

(** C10.  Whatever calls are made on a new tree, the root stays absent;
    so in every instance reached no value is found, [add] returns [true]
    for every value, [remove] returns [false] for every value, and
    [size()] is the number of [add] calls made so far. *)
Theorem root_stays_absent
        {T : Type} {cmp : Comparable T} (calls : list (call T)) :
  let this := run calls new in
  _root this = Null
  /\ (forall elem, contains this elem = false)
  /\ (forall elem, fst (add this elem) = true)
  /\ (forall elem, fst (remove this elem) = false)
  /\ size this = addCalls calls.
Proof.
  destruct (run_absent_root calls new eq_refl) as [Hroot Hcount].
  cbv zeta. split; [assumption |]. repeat split.
  - intros elem. unfold contains. rewrite Hroot. reflexivity.
  - intros elem. rewrite (add_absent_root _ elem Hroot). reflexivity.
  - intros elem. rewrite (remove_absent_root _ elem Hroot). reflexivity.
  - unfold size. rewrite Hcount. reflexivity.
Qed.

(** ** Further properties of the methods *)

(** X1.  Insertions never change the tree.  After [add] of each value of a
    list, duplicates or not, the root is what it was and the count has gone
    up by one for each value of the list that was not found at the
    start. *)
Theorem addAll_counts_only
        {T : Type} {cmp : Comparable T} (elems : list T) (this : t T) :
  addAll elems this
  = {| _nodeCount :=
         _nodeCount this
         + Z.of_nat (length (filter (fun x => negb (contains this x))
                                    elems));
       _root := _root this |}.
Proof.
  revert this.
  induction elems as [| x elems IH]; intros this.
  - destruct this as [n root]. unfold addAll. simpl. f_equal. lia.
  - change (addAll (x :: elems) this)
      with (addAll elems (snd (step this (Add x)))).
    destruct (contains this x) eqn:Hx.
    + replace (snd (step this (Add x))) with this
        by (simpl; unfold add; rewrite Hx; reflexivity).
      rewrite IH. cbn [filter]. rewrite Hx. reflexivity.
    + replace (snd (step this (Add x)))
        with {| _nodeCount := _nodeCount this + 1; _root := _root this |}
        by (simpl; unfold add; rewrite Hx, recursiveAdd_same;
            reflexivity).
      rewrite IH. cbn [filter]. rewrite Hx.
      unfold contains. cbn [_root _nodeCount negb length].
      f_equal. lia.
Qed.

(** X2.  On a search tree over ordered payloads, [contains] finds exactly
    the payloads of the nodes reachable from the root. *)
Theorem contains_iff_elements
        {T : Type} {cmp : Comparable T} {ord : StrictTotalOrder T}
        (this : t T) (elem : T) :
  isBST (_root this) = true ->
  contains this elem = true <-> In elem (elements (_root this)).
Proof.
  intros Hbst. unfold contains. split.
  - apply recursiveContains_elements.
  - apply elements_recursiveContains. assumption.
Qed.

Lemma contains_iff_elements_witness :
  StrictTotalOrder Z
  /\ isBST (_root sevenTree) = true
  /\ (contains sevenTree 4 = true <-> In 4 (elements (_root sevenTree))).
Proof.
  split; [exact Z_StrictTotalOrder |]. split; [reflexivity |].
  apply (contains_iff_elements (ord := Z_StrictTotalOrder) sevenTree 4).
  reflexivity.
Defined.

(** X3.  [remove] keeps a search tree a search tree. *)
Theorem remove_keeps_search_tree
        {T : Type} {cmp : Comparable T} {ord : StrictTotalOrder T}
        (this : t T) (elem : T) :
  isBST (_root this) = true ->
  isBST (_root (snd (remove this elem))) = true.
Proof.
  intros Hbst. unfold remove.
  destruct (contains this elem); cbn [snd _root].
  - apply recursiveRemove_isBST. assumption.
  - assumption.
Qed.

Lemma remove_keeps_search_tree_witness :
  StrictTotalOrder Z
  /\ isBST (_root sevenTree) = true
  /\ isBST (_root (snd (remove sevenTree 5))) = true.
Proof.
  split; [exact Z_StrictTotalOrder |]. split; [reflexivity |].
  apply (remove_keeps_search_tree (ord := Z_StrictTotalOrder) sevenTree 5).
  reflexivity.
Defined.

(** X4.  On a search tree, [remove] takes the given value out of the
    left-to-right sequence of payloads and leaves every other payload
    where it was. *)
Theorem remove_drops_one_value
        {T : Type} {cmp : Comparable T} {ord : StrictTotalOrder T}
        (this : t T) (elem : T) :
  isBST (_root this) = true ->
  elements (_root (snd (remove this elem)))
  = filter (fun x => (x <? elem) || (elem <? x)) (elements (_root this)).
Proof.
  intros Hbst. unfold remove.
  destruct (contains this elem) eqn:Hfound; cbn [snd _root].
  - apply recursiveRemove_filter. assumption.
  - symmetry. apply filter_keeps_all. intros x Hx.
    destruct (x <? elem) eqn:Hlt; [reflexivity |].
    destruct (elem <? x) eqn:Hgt; [reflexivity |].
    assert (x = elem) by (apply lt_connex; assumption). subst x.
    unfold contains in Hfound.
    rewrite (elements_recursiveContains _ _ Hbst Hx) in Hfound.
    discriminate.
Qed.

Lemma remove_drops_one_value_witness :
  StrictTotalOrder Z
  /\ isBST (_root sevenTree) = true
  /\ elements (_root (snd (remove sevenTree 5)))
     = filter (fun x => (x <? 5) || (5 <? x)) (elements (_root sevenTree)).
Proof.
  split; [exact Z_StrictTotalOrder |]. split; [reflexivity |].
  apply (remove_drops_one_value (ord := Z_StrictTotalOrder) sevenTree 5).
  reflexivity.
Defined.

(** X5.  On a search tree, [remove] of one value does not change what
    [contains] answers for any other value. *)
Theorem remove_keeps_other_lookups
        {T : Type} {cmp : Comparable T} {ord : StrictTotalOrder T}
        (this : t T) (elem x : T) :
  isBST (_root this) = true ->
  (x <? elem) || (elem <? x) = true ->
  contains (snd (remove this elem)) x = contains this x.
Proof.
  intros Hbst Hother.
  pose proof (recursiveRemove_isBST (_root this) elem Hbst) as Hbst'.
  unfold remove.
  destruct (contains this elem); [| reflexivity].
  unfold contains. cbn [snd _root].
  apply Bool.eq_iff_eq_true. split; intros Hfound.
  - apply elements_recursiveContains; [assumption |].
    apply recursiveContains_elements in Hfound.
    apply (recursiveRemove_elements _ _ _ Hfound).
  - apply elements_recursiveContains; [assumption |].
    rewrite (recursiveRemove_filter _ _ Hbst). apply filter_In.
    split; [| assumption].
    apply recursiveContains_elements. assumption.
Qed.

Lemma remove_keeps_other_lookups_witness :
  StrictTotalOrder Z
  /\ isBST (_root sevenTree) = true
  /\ (9 <? 8) || (8 <? 9) = true
  /\ contains (snd (remove sevenTree 8)) 9 = contains sevenTree 9.
Proof.
  split; [exact Z_StrictTotalOrder |]. split; [reflexivity |].
  split; [reflexivity |].
  apply (remove_keeps_other_lookups (ord := Z_StrictTotalOrder)
           sevenTree 8 9); reflexivity.
Defined.

(** X6.  On a search tree whose count is the number of its nodes,
    [remove] leaves the count equal to the number of nodes, whether it
    finds the value or not. *)
Theorem remove_keeps_count
        {T : Type} {cmp : Comparable T} {ord : StrictTotalOrder T}
        (this : t T) (elem : T) :
  isBST (_root this) = true ->
  _nodeCount this = countNodes (_root this) ->
  _nodeCount (snd (remove this elem))
  = countNodes (_root (snd (remove this elem))).
Proof.
  intros Hbst Hcount. unfold remove.
  destruct (contains this elem) eqn:Hfound;
    cbn [snd _root _nodeCount]; [| assumption].
  rewrite (recursiveRemove_countNodes _ _ Hbst Hfound). lia.
Qed.

Lemma remove_keeps_count_witness :
  StrictTotalOrder Z
  /\ isBST (_root sevenTree) = true
  /\ _nodeCount sevenTree = countNodes (_root sevenTree)
  /\ _nodeCount (snd (remove sevenTree 3))
     = countNodes (_root (snd (remove sevenTree 3))).
Proof.
  split; [exact Z_StrictTotalOrder |]. split; [reflexivity |].
  split; [reflexivity |].
  apply (remove_keeps_count (ord := Z_StrictTotalOrder) sevenTree 3);
    reflexivity.
Defined.

(** X7.  On a search tree, a second [remove] of a value that was just
    removed returns [false] and changes nothing. *)
Theorem remove_twice
        {T : Type} {cmp : Comparable T} {ord : StrictTotalOrder T}
        (this : t T) (elem : T) :
  isBST (_root this) = true ->
  contains this elem = true ->
  remove (snd (remove this elem)) elem = (false, snd (remove this elem)).
Proof.
  intros Hbst Hfound. unfold remove at 2 3. rewrite Hfound. cbn [snd].
  unfold remove, contains. cbn [_root].
  rewrite (recursiveRemove_drops _ elem Hbst). reflexivity.
Qed.

Lemma remove_twice_witness :
  StrictTotalOrder Z
  /\ isBST (_root sevenTree) = true
  /\ contains sevenTree 8 = true
  /\ remove (snd (remove sevenTree 8)) 8 = (false, snd (remove sevenTree 8)).
Proof.
  split; [exact Z_StrictTotalOrder |]. split; [reflexivity |].
  split; [reflexivity |].
  apply (remove_twice (ord := Z_StrictTotalOrder) sevenTree 8);
    reflexivity.
Defined.

(** X8.  Whatever the comparison operators do, [remove] lowers the height
    by one at most and the number of nodes by one at most, and raises
    neither. *)
Theorem remove_shrinks
        {T : Type} {cmp : Comparable T} (this : t T) (elem : T) :
  (height this - 1 <= height (snd (remove this elem))
   /\ height (snd (remove this elem)) <= height this)
  /\ (countNodes (_root this) - 1
      <= countNodes (_root (snd (remove this elem)))
      /\ countNodes (_root (snd (remove this elem)))
         <= countNodes (_root this)).
Proof.
  unfold remove, height.
  destruct (contains this elem); cbn [snd _root].
  - apply recursiveRemove_shrinks.
  - lia.
Qed.

(** X9.  Whatever the comparison operators do, every payload in the tree
    after [remove] was in the tree before. *)
Theorem remove_brings_nothing
        {T : Type} {cmp : Comparable T} (this : t T) (elem : T) :
  incl (elements (_root (snd (remove this elem)))) (elements (_root this)).
Proof.
  unfold remove.
  destruct (contains this elem); cbn [snd _root].
  - intros x Hx. apply (recursiveRemove_elements _ _ _ Hx).
  - apply incl_refl.
Qed.

(** X10.  Whatever the comparison operators do, the recursive removal of
    a value that the lookup does not find hands the tree back as it was:
    the [contains] test in [remove] guards the count, not the tree. *)
Theorem recursiveRemove_missing
        {T : Type} {cmp : Comparable T}
        (node : BinarySearchTreeNode T) (elem : T) :
  recursiveContains node elem = false -> recursiveRemove node elem = node.
Proof.
  induction node as [| l IHl d r IHr]; simpl; [reflexivity |].
  destruct (elem <? d).
  { intros H. rewrite (IHl H). reflexivity. }
  destruct (d <? elem).
  { intros H. rewrite (IHr H). reflexivity. }
  discriminate.
Qed.

Lemma recursiveRemove_missing_witness :
  recursiveContains seven 6 = false /\ recursiveRemove seven 6 = seven.
Proof.
  split; [reflexivity |].
  apply (recursiveRemove_missing seven 6). reflexivity.
Defined.

(** X11.  [height()] is 0 exactly when the root is absent, and a tree of
    height [h] holds at least [h] and at most [2^h - 1] nodes. *)
Theorem height_bounds {T : Type} (this : t T) :
  (height this = 0 <-> _root this = Null)
  /\ height this <= countNodes (_root this)
  /\ countNodes (_root this) + 1 <= 2 ^ height this.
Proof.
  unfold height. split; [| apply recursiveHeight_countNodes].
  destruct (_root this) as [| l d r]; [split; reflexivity |].
  pose proof (recursiveHeight_nonneg l).
  pose proof (recursiveHeight_nonneg r).
  cbn [recursiveHeight]. split; [lia | discriminate].
Qed.

(** X12.  On a present node, [findMin] returns a node without left child
    whose payload comes first in left-to-right order. *)
Theorem findMin_first
        {T : Type} (node : BinarySearchTreeNode T) :
  node <> Null ->
  exists m r' rest,
    findMin node = Node Null m r' /\ elements node = m :: rest.
Proof.
  induction node as [| l IHl d r _]; intros Hpresent; [congruence |].
  destruct l as [| ll ld lr].
  - exists d, r, (elements r). split; reflexivity.
  - destruct IHl as (m & r' & rest & Hmin & Hfirst); [discriminate |].
    exists m, r', (rest ++ d :: elements r). split.
    + exact Hmin.
    + change (elements (Node ll ld lr) ++ d :: elements r
              = m :: rest ++ d :: elements r).
      rewrite Hfirst. reflexivity.
Qed.

Lemma findMin_first_witness :
  seven <> Null
  /\ exists m r' rest,
       findMin seven = Node Null m r' /\ elements seven = m :: rest.
Proof.
  split; [discriminate |].
  apply (findMin_first seven). discriminate.
Defined.

(** X13.  In a search tree over ordered payloads, no payload is less than
    the payload of the node [findMin] returns. *)
Theorem findMin_is_least
        {T : Type} {cmp : Comparable T} {ord : StrictTotalOrder T}
        (node l' r' : BinarySearchTreeNode T) (m : T) :
  isBST node = true ->
  findMin node = Node l' m r' ->
  In m (elements node)
  /\ forall x, In x (elements node) -> (x <? m) = false.
Proof.
  intros Hbst Hmin. split.
  - destruct node as [| l d r]; [discriminate |].
    destruct (findMin_elements (Node l d r))
      as (l'' & m' & r'' & Hmin' & Hin); [discriminate |].
    rewrite Hmin in Hmin'. injection Hmin' as _ Hm _. subst m'.
    assumption.
  - apply (findMin_least _ _ _ _ Hbst Hmin).
Qed.

Lemma findMin_is_least_witness :
  StrictTotalOrder Z
  /\ isBST seven = true
  /\ findMin seven = Node Null 1 Null
  /\ In 1 (elements seven)
  /\ forall x, In x (elements seven) -> (x <? 1) = false.
Proof.
  split; [exact Z_StrictTotalOrder |]. split; [reflexivity |].
  split; [reflexivity |].
  apply (findMin_is_least (ord := Z_StrictTotalOrder) seven Null Null 1);
    reflexivity.
Defined.

(** X14.  On a present node, [findMax] returns a node without right child
    whose payload comes last in left-to-right order. *)
Theorem findMax_last
        {T : Type} (node : BinarySearchTreeNode T) :
  node <> Null ->
  exists l' m rest,
    findMax node = Node l' m Null /\ elements node = rest ++ [m].
Proof.
  induction node as [| l _ d r IHr]; intros Hpresent; [congruence |].
  destruct r as [| rl rd rr].
  - exists l, d, (elements l). split; reflexivity.
  - destruct IHr as (l' & m & rest & Hmax & Hlast); [discriminate |].
    exists l', m, (elements l ++ d :: rest). split.
    + exact Hmax.
    + change (elements l ++ d :: elements (Node rl rd rr)
              = (elements l ++ d :: rest) ++ [m]).
      rewrite Hlast, <- app_assoc. reflexivity.
Qed.

Lemma findMax_last_witness :
  seven <> Null
  /\ exists l' m rest,
       findMax seven = Node l' m Null /\ elements seven = rest ++ [m].
Proof.
  split; [discriminate |].
  apply (findMax_last seven). discriminate.
Defined.

(** X15.  In a search tree over ordered payloads, no payload is greater
    than the payload of the node [findMax] returns. *)
Theorem findMax_is_greatest
        {T : Type} {cmp : Comparable T} {ord : StrictTotalOrder T}
        (node l' r' : BinarySearchTreeNode T) (m : T) :
  isBST node = true ->
  findMax node = Node l' m r' ->
  In m (elements node)
  /\ forall x, In x (elements node) -> (m <? x) = false.
Proof.
  induction node as [| l _ d r IHr]; intros Hbst Hmax; [discriminate |].
  simpl in Hbst. rewrite !andb_true_iff in Hbst.
  destruct Hbst as [[[Hl Hr] _] Hbr].
  rewrite forallb_forall in Hl, Hr.
  destruct r as [| rl rd rr].
  - injection Hmax as _ Hd _. subst m. split.
    + cbn [elements]. apply in_or_app. right. left. reflexivity.
    + cbn [elements]. intros x Hx. apply in_app_or in Hx.
      destruct Hx as [Hx | [Hx | []]].
      * apply lt_asym, Hl, Hx.
      * subst x. apply lt_irrefl.
  - change (findMax (Node rl rd rr) = Node l' m r') in Hmax.
    destruct (IHr Hbr Hmax) as [Hin Hgreatest].
    pose proof (Hr _ Hin) as Hdm.
    remember (Node rl rd rr) as r0 eqn:Er0.
    cbn [elements]. split.
    + apply in_or_app. right. right. assumption.
    + intros x Hx. apply in_app_or in Hx.
      destruct Hx as [Hx | [Hx | Hx]].
      * apply lt_asym. apply (lt_trans x d m (Hl _ Hx) Hdm).
      * subst x. apply lt_asym, Hdm.
      * apply Hgreatest, Hx.
Qed.

Lemma findMax_is_greatest_witness :
  StrictTotalOrder Z
  /\ isBST seven = true
  /\ findMax seven = Node Null 9 Null
  /\ In 9 (elements seven)
  /\ forall x, In x (elements seven) -> (9 <? x) = false.
Proof.
  split; [exact Z_StrictTotalOrder |]. split; [reflexivity |].
  split; [reflexivity |].
  apply (findMax_is_greatest (ord := Z_StrictTotalOrder)
           seven Null Null 9); reflexivity.
Defined.

(** X16.  On an instance whose count is the number of its nodes,
    [isEmpty()] is true exactly when the root is absent. *)
Theorem isEmpty_iff_absent_root {T : Type} (this : t T) :
  _nodeCount this = countNodes (_root this) ->
  isEmpty this = true <-> _root this = Null.
Proof.
  intros Hcount. unfold isEmpty, size. rewrite Z.eqb_eq, Hcount.
  destruct (_root this) as [| l d r]; [split; reflexivity |].
  pose proof (countNodes_nonneg l). pose proof (countNodes_nonneg r).
  cbn [countNodes]. split; [lia | discriminate].
Qed.

Lemma isEmpty_iff_absent_root_witness :
  _nodeCount sevenTree = countNodes (_root sevenTree)
  /\ (isEmpty sevenTree = true <-> _root sevenTree = Null).
Proof.
  split; [reflexivity |].
  apply (isEmpty_iff_absent_root sevenTree). reflexivity.
Defined.

(** X17.  On a search tree whose count is the number of its nodes,
    [remove] of every value of a list that holds all the stored payloads,
    in whatever order and with whatever other values or repetitions, ends
    with an absent root and a count of 0. *)
Theorem removeAll_empties
        {T : Type} {cmp : Comparable T} {ord : StrictTotalOrder T}
        (elems : list T) (this : t T) :
  isBST (_root this) = true ->
  _nodeCount this = countNodes (_root this) ->
  incl (elements (_root this)) elems ->
  removeAll elems this = new.
Proof.
  revert this.
  induction elems as [| a elems IH]; intros this Hbst Hcount Hall.
  - destruct this as [n root]. cbn [_root _nodeCount] in *.
    destruct root as [| l d r].
    + cbn [countNodes] in Hcount. subst n. reflexivity.
    + exfalso. apply (Hall d). cbn [elements].
      apply in_or_app. right. left. reflexivity.
  - change (removeAll (a :: elems) this)
      with (removeAll elems (snd (step this (Remove a)))).
    replace (snd (step this (Remove a))) with (snd (remove this a))
      by (simpl; destruct (remove this a); reflexivity).
    unfold remove. destruct (contains this a) eqn:Hfound; cbn [snd].
    + apply IH; cbn [_root _nodeCount].
      * apply recursiveRemove_isBST. assumption.
      * rewrite (recursiveRemove_countNodes _ _ Hbst Hfound). lia.
      * rewrite (recursiveRemove_filter _ _ Hbst).
        intros x Hx. apply filter_In in Hx. destruct Hx as [Hx Hother].
        destruct (Hall x Hx) as [Heq | Hin]; [| assumption].
        subst x. rewrite lt_irrefl in Hother. discriminate.
    + apply IH; [assumption | assumption |].
      intros x Hx.
      destruct (Hall x Hx) as [Heq | Hin]; [| assumption].
      subst x. unfold contains in Hfound.
      rewrite (elements_recursiveContains _ _ Hbst Hx) in Hfound.
      discriminate.
Qed.

Lemma removeAll_empties_witness :
  StrictTotalOrder Z
  /\ isBST (_root sevenTree) = true
  /\ _nodeCount sevenTree = countNodes (_root sevenTree)
  /\ incl (elements (_root sevenTree)) [9; 1; 5; 6; 3; 8; 4; 5; 7]
  /\ removeAll [9; 1; 5; 6; 3; 8; 4; 5; 7] sevenTree = new.
Proof.
  split; [exact Z_StrictTotalOrder |]. split; [reflexivity |].
  split; [reflexivity |].
  assert (incl (elements (_root sevenTree)) [9; 1; 5; 6; 3; 8; 4; 5; 7])
    as Hincl by (intros x Hx; simpl in Hx; simpl; intuition).
  split; [exact Hincl |].
  apply (removeAll_empties (ord := Z_StrictTotalOrder)
           [9; 1; 5; 6; 3; 8; 4; 5; 7] sevenTree);
    [reflexivity | reflexivity | exact Hincl].
Defined.
